(** * septic_api: the home-data normalisation service

    A shallow embedding of [common/mappings.py] and
    [services/home_data_svc/base.py]: the House Canary adapter, the
    provider-to-generic tables, the constructed field [has_septic] and the
    pipeline [build_home_data] (fetch, parse, normalise, construct, prune).

    Python values are the ones [response.json()] can produce.  A [dict] is
    an association list in insertion order, as Python iterates it; a raised
    exception is the [Raise] branch of the result type [res]; the attribute
    [self.data] is threaded as explicit state. *)

From Stdlib Require Import String Ascii List ZArith Bool Lia.
Import ListNotations.
Local Open Scope string_scope.

(** ** Python values, exceptions and results *)

#[local] Set Warnings "-register-all".

Inductive pyval : Type :=
| PNone
| PBool (b : bool)
| PInt (z : Z)
| PFloat (literal : string)      (* a float, never inspected by the service *)
| PStr (s : string)
| PList (l : list pyval)
| PDict (d : list (string * pyval)).

(** A JSON object after decoding: string keys, insertion order. *)
Definition dict : Type := list (string * pyval).

Inductive exn : Type :=
| KeyError (key : string)
| TypeError
| AttributeError
| ValueError
| RequestsConnectionError        (* requests.exceptions.ConnectionError *)
| RequestsTimeout                (* requests.exceptions.Timeout *)
| HTTPError (status : Z)         (* raised by Response.raise_for_status *)
| JSONDecodeError.               (* raised by Response.json *)

Inductive res (A : Type) : Type :=
| Ok (a : A)
| Raise (e : exn).
Arguments Ok {A} a.
Arguments Raise {A} e.

Definition bind {A B : Type} (c : res A) (k : A -> res B) : res B :=
  match c with
  | Ok a => k a
  | Raise e => Raise e
  end.

Notation "x <- c ;; k" := (bind c (fun x => k))
  (at level 61, c at next level, right associativity).

(** ** Dictionary operations *)

Fixpoint dict_get {V : Type} (k : string) (d : list (string * V)) : option V :=
  match d with
  | [] => None
  | (k', v) :: rest => if String.eqb k k' then Some v else dict_get k rest
  end.

(** [d[k] = v]: an existing key keeps its position, a new key goes last. *)
Fixpoint dict_set (k : string) (v : pyval) (d : dict) : dict :=
  match d with
  | [] => [(k, v)]
  | (k', v') :: rest =>
      if String.eqb k k' then (k', v) :: rest else (k', v') :: dict_set k v rest
  end.

Definition dict_keys {V : Type} (d : list (string * V)) : list string :=
  map fst d.

(** [k in l] for a list of strings. *)
Definition str_in (k : string) (l : list string) : bool :=
  existsb (String.eqb k) l.

(** The comprehension [{key: val for key, val in d.items() if key in keep}]. *)
Definition dict_restrict (keep : list string) (d : dict) : dict :=
  filter (fun kv => str_in (fst kv) keep) d.

(** [v[k]] for a string [k]: only a dict can be subscripted by a string. *)
Definition py_getitem (v : pyval) (k : string) : res pyval :=
  match v with
  | PDict d =>
      match dict_get k d with
      | Some x => Ok x
      | None => Raise (KeyError k)
      end
  | _ => Raise TypeError
  end.

(** [v.get(k, default)]: of the decoded JSON values only a dict has [get]. *)
Definition py_get (v : pyval) (k : string) (default : pyval) : res pyval :=
  match v with
  | PDict d =>
      match dict_get k d with
      | Some x => Ok x
      | None => Ok default
      end
  | _ => Raise AttributeError
  end.

(** [v == s] for a string [s]: only an equal string compares equal. *)
Definition py_eq_str (v : pyval) (s : string) : bool :=
  match v with
  | PStr s' => String.eqb s' s
  | _ => false
  end.

Definition hashable (v : pyval) : bool :=
  match v with
  | PList _ | PDict _ => false
  | _ => true
  end.

(** [dict.update] with a dict argument: the argument's items are written
    in order. *)
Definition dict_update (d other : dict) : dict :=
  fold_left (fun acc kv => dict_set (fst kv) (snd kv) acc) other d.

(** [dict.update] with a non-dict argument iterates it as a sequence of
    key/value pairs.  This reads the pair off one element: the element is
    turned into a sequence, which must have length two. *)
Definition pair_of_element (e : pyval) : res (pyval * pyval) :=
  match e with
  | PList [k; v] => Ok (k, v)
  | PList _ => Raise ValueError
  | PStr s =>
      match list_ascii_of_string s with
      | [a; b] => Ok (PStr (String a ""), PStr (String b ""))
      | _ => Raise ValueError
      end
  | PDict [(k1, _); (k2, _)] => Ok (PStr k1, PStr k2)
  | PDict _ => Raise ValueError
  | PNone | PBool _ | PInt _ | PFloat _ => Raise TypeError
  end.

(** Keys that are not strings are not recorded: [dict] has string keys, and
    such a key is equal to no field name. *)
Fixpoint update_from_pairs (d : dict) (seq : list pyval) : res dict :=
  match seq with
  | [] => Ok d
  | e :: rest =>
      kv <- pair_of_element e ;;
      match fst kv with
      | PStr s => update_from_pairs (dict_set s (snd kv) d) rest
      | PList _ | PDict _ => Raise TypeError
      | _ => update_from_pairs d rest
      end
  end.

(** [target.update(other)] on decoded JSON values. *)
Definition py_update (target other : pyval) : res dict :=
  match target with
  | PDict d =>
      match other with
      | PDict o => Ok (dict_update d o)
      | PList l => update_from_pairs d l
      | PStr s =>
          update_from_pairs d
            (map (fun c => PStr (String c "")) (list_ascii_of_string s))
      | PNone | PBool _ | PInt _ | PFloat _ => Raise TypeError
      end
  | _ => Raise AttributeError
  end.

(** ** common/mappings.py *)

Module GenericSewerMappings.
Inductive t : Type :=
| septic | municipal | storm | type_unknown | existence_unknown | no_sewer.

Definition value (m : t) : string :=
  match m with
  | septic => "septic"
  | municipal => "municipal"
  | storm => "storm"
  | type_unknown => "type_unknown"
  | existence_unknown => "existence_unknown"
  | no_sewer => "no_sewer"
  end.
End GenericSewerMappings.

Module GenericFieldsToMappings.
Inductive t : Type := sewer.

Definition name (f : t) : string :=
  match f with sewer => "sewer" end.
End GenericFieldsToMappings.

(** ** services/home_data_svc/base.py: enums and tables *)

Module HouseCanarySewerPropertyDetails.
Inductive t : Type := municipal | septic | storm | none | Yes.

Definition value (m : t) : string :=
  match m with
  | municipal => "Municipal"
  | septic => "Septic"
  | storm => "Storm"
  | none => "None"
  | Yes => "Yes"
  end.

Definition members : list t := [municipal; septic; storm; none; Yes].

(** [HouseCanarySewerPropertyDetails(v)]: the member whose value is [v],
    [ValueError] when there is none. *)
Definition call (v : pyval) : res t :=
  match find (fun m => py_eq_str v (value m)) members with
  | Some m => Ok m
  | None => Raise ValueError
  end.
End HouseCanarySewerPropertyDetails.

Module HouseCanaryFields.
Inductive t : Type := sewer.

Definition name (f : t) : string :=
  match f with sewer => "sewer" end.

(** The member's value is the enum class that validates the field. *)
Definition value (f : t) : pyval -> res HouseCanarySewerPropertyDetails.t :=
  match f with sewer => HouseCanarySewerPropertyDetails.call end.

(** [HouseCanaryFields[field_name]]. *)
Definition getitem (field_name : string) : res t :=
  if String.eqb field_name (name sewer) then Ok sewer
  else Raise (KeyError field_name).
End HouseCanaryFields.

Definition house_canary_field_to_generic
  : list (string * GenericFieldsToMappings.t) :=
  [ (HouseCanaryFields.name HouseCanaryFields.sewer,
     GenericFieldsToMappings.sewer) ].

Definition house_canary_sewer_to_generic : list (string * string) :=
  [ (HouseCanarySewerPropertyDetails.value HouseCanarySewerPropertyDetails.municipal,
     GenericSewerMappings.value GenericSewerMappings.municipal);
    (HouseCanarySewerPropertyDetails.value HouseCanarySewerPropertyDetails.septic,
     GenericSewerMappings.value GenericSewerMappings.septic);
    (HouseCanarySewerPropertyDetails.value HouseCanarySewerPropertyDetails.storm,
     GenericSewerMappings.value GenericSewerMappings.storm);
    (HouseCanarySewerPropertyDetails.value HouseCanarySewerPropertyDetails.none,
     GenericSewerMappings.value GenericSewerMappings.no_sewer);
    (HouseCanarySewerPropertyDetails.value HouseCanarySewerPropertyDetails.Yes,
     GenericSewerMappings.value GenericSewerMappings.type_unknown) ].

(** [table[k]] *)
Definition table_getitem {V : Type} (table : list (string * V)) (k : string)
  : res V :=
  match dict_get k table with
  | Some x => Ok x
  | None => Raise (KeyError k)
  end.

(** The entry of a string-keyed table under an arbitrary value: only a
    string can be equal to a key. *)
Definition table_lookup (table : list (string * string)) (key : pyval)
  : option string :=
  match key with
  | PStr s => dict_get s table
  | _ => None
  end.

(** [table.get(key, default)]; an unhashable key is a [TypeError]. *)
Definition table_get (table : list (string * string)) (key : pyval)
    (default : string) : res string :=
  if hashable key then
    Ok (match table_lookup table key with
        | Some c => c
        | None => default
        end)
  else Raise TypeError.

(** ** services/home_data_svc/base.py: the service *)

(** An instance of [HouseCanaryHomeDataSvc]: the three constructor
    arguments and the attribute [data] ([None] until a build succeeds). *)
Record HomeDataSvc : Type := {
  expected_fields : list string;
  address : option string;
  zip_code : option string;
  data : option dict
}.

Definition init (expected_fields : list string) (address zip_code : option string)
  : HomeDataSvc :=
  {| expected_fields := expected_fields;
     address := address;
     zip_code := zip_code;
     data := None |}.

Definition set_data (self : HomeDataSvc) (d : dict) : HomeDataSvc :=
  {| expected_fields := expected_fields self;
     address := address self;
     zip_code := zip_code self;
     data := Some d |}.

Definition constructed_fields : list string := ["has_septic"].

Definition fields_to_retrieve : list string :=
  [HouseCanaryFields.name HouseCanaryFields.sewer].

(** What [requests.get] hands back: a status code and the decoded body,
    [None] when the body is not JSON. *)
Record Response : Type := {
  status_code : Z;
  body : option pyval
}.

(** The network, seen from the service: the outcome of the GET request for
    an address and a zip code, either a response or a raised exception. *)
Definition network : Type := option string -> option string -> res Response.

Definition raise_for_status (response : Response) : res unit :=
  if ((400 <=? status_code response) && (status_code response <? 600))%Z
  then Raise (HTTPError (status_code response))
  else Ok tt.

Definition json (response : Response) : res pyval :=
  match body response with
  | Some v => Ok v
  | None => Raise JSONDecodeError
  end.

Section Service.

Variable requests_get : network.

Definition fetch_home_data (self : HomeDataSvc) : res pyval :=
  response <- requests_get (address self) (zip_code self) ;;
  _ <- raise_for_status response ;;
  json response.

Definition save_to_file (self : HomeDataSvc) (fetched_data : pyval) : res unit :=
  Ok tt.

Definition parse_home_data (self : HomeDataSvc) (home_data : pyval) : res dict :=
  details <- py_getitem home_data "property/details" ;;
  result <- py_getitem details "result" ;;
  property_data <- py_get result "property" (PDict []) ;;
  property_assessment <- py_get result "assessment" (PDict []) ;;
  merged <- py_update property_data property_assessment ;;
  Ok (dict_restrict fields_to_retrieve merged).

(** The loop of [normalize_home_data] over the remaining items. *)
Fixpoint normalize_items (items : dict) (normalized_home_data : dict) : res dict :=
  match items with
  | [] => Ok normalized_home_data
  | (field_name, value) :: rest =>
      field <- HouseCanaryFields.getitem field_name ;;
      _ <- HouseCanaryFields.value field value ;;
      normalized_field <- table_getitem house_canary_field_to_generic field_name ;;
      let normalized_field_name := GenericFieldsToMappings.name normalized_field in
      normalized_field_value <-
        table_get house_canary_sewer_to_generic value
          (GenericSewerMappings.value GenericSewerMappings.existence_unknown) ;;
      normalize_items rest
        (dict_set normalized_field_name (PStr normalized_field_value)
           normalized_home_data)
  end.

Definition normalize_home_data (self : HomeDataSvc) (home_data : dict) : res dict :=
  normalize_items home_data [].

Definition has_septic (self : HomeDataSvc) (data : dict) : res pyval :=
  let sewer_key := GenericFieldsToMappings.name GenericFieldsToMappings.sewer in
  v <- table_getitem data sewer_key ;;
  Ok (PBool (py_eq_str v (GenericSewerMappings.value GenericSewerMappings.septic))).

(** [getattr(self, constructed_field)]: the field constructors are the
    methods named after a constructed field. *)
Definition getattr (self : HomeDataSvc) (name : string)
  : res (dict -> res pyval) :=
  if String.eqb name "has_septic" then Ok (has_septic self)
  else Raise AttributeError.

(** The loop of [_build_constructed_fields]; only [AttributeError] is
    caught. *)
Fixpoint build_fields (self : HomeDataSvc) (fields : list string)
    (normalized_data : dict) : res dict :=
  match fields with
  | [] => Ok normalized_data
  | constructed_field :: rest =>
      match (field_constructor <- getattr self constructed_field ;;
             v <- field_constructor normalized_data ;;
             Ok (dict_set constructed_field v normalized_data)) with
      | Ok d => build_fields self rest d
      | Raise AttributeError => build_fields self rest normalized_data
      | Raise e => Raise e
      end
  end.

Definition _build_constructed_fields (self : HomeDataSvc) (normalized_data : dict)
  : res dict :=
  build_fields self constructed_fields normalized_data.

(** The pipeline up to the pruned mapping. *)
Definition pruned_home_data (self : HomeDataSvc) : res dict :=
  fetched_data <- fetch_home_data self ;;
  _ <- save_to_file self fetched_data ;;
  parsed_data <- parse_home_data self fetched_data ;;
  normalized_data <- normalize_home_data self parsed_data ;;
  data_with_constructed_fields <- _build_constructed_fields self normalized_data ;;
  Ok (dict_restrict (expected_fields self) data_with_constructed_fields).

(** [build_home_data]: the returned mapping or the raised exception, and
    the instance afterwards. *)
Definition build_home_data (self : HomeDataSvc) : res dict * HomeDataSvc :=
  match pruned_home_data self with
  | Ok pruned_data => (Ok pruned_data, set_data self pruned_data)
  | Raise e => (Raise e, self)
  end.

End Service.

(** ** septic_api/views.py *)

Module views.

(** [request.GET]: the query parameters, in the order of the query
    string; a key may occur several times. *)
Definition QueryDict : Type := list (string * string).

(** [GET.getlist(key)]: every value given for the key, in order. *)
Definition getlist (GET : QueryDict) (key : string) : list string :=
  map snd (filter (fun kv => String.eqb (fst kv) key) GET).

(** [GET.get(key)]: the last value given for the key, [None] without one. *)
Definition get (GET : QueryDict) (key : string) : option string :=
  last (map Some (getlist GET key)) None.

(** [Response(data=...)] of the REST framework. *)
Record Response : Type := { response_data : option dict }.

(** [HomeDataViewSet.unregistered_home_data]: the response, or the
    exception that leaves the view. *)
Definition unregistered_home_data (requests_get : network) (GET : QueryDict)
  : res Response :=
  let zip_code := get GET "zip" in
  let address := get GET "address" in
  let expected_fields := getlist GET "fields" in
  let home_data_svc := init expected_fields address zip_code in
  match build_home_data requests_get home_data_svc with
  | (Ok _, home_data_svc') => Ok {| response_data := data home_data_svc' |}
  | (Raise e, _) => Raise e
  end.

End views.

(** ** Notions used in the statements *)

(** The default of the table lookup in [normalize_home_data]. *)
Definition sewer_default : string :=
  GenericSewerMappings.value GenericSewerMappings.existence_unknown.

(** What [house_canary_sewer_to_generic.get] returns for the value of a
    member of the provider enum. *)
Definition generic_of (m : HouseCanarySewerPropertyDetails.t) : string :=
  match dict_get (HouseCanarySewerPropertyDetails.value m)
          house_canary_sewer_to_generic with
  | Some c => c
  | None => sewer_default
  end.

(** What a normalised mapping can look like: empty, or the sewer field with
    a canonical value taken from the table. *)
Inductive normalized_shape : dict -> Prop :=
| shape_empty : normalized_shape []
| shape_sewer (m : HouseCanarySewerPropertyDetails.t) :
    normalized_shape [("sewer", PStr (generic_of m))].

(** The fields the adapter can produce, in generic names. *)
Definition producible_fields : list string :=
  flat_map
    (fun f => match dict_get f house_canary_field_to_generic with
              | Some g => [GenericFieldsToMappings.name g]
              | None => []
              end)
    fields_to_retrieve.

(** Membership of a value in the provider's declared universe. *)
Definition in_universe (v : pyval) : bool :=
  existsb (fun m => py_eq_str v (HouseCanarySewerPropertyDetails.value m))
    HouseCanarySewerPropertyDetails.members.

(** The expected container: [home_data['property/details']['result']]. *)
Definition container (home_data : pyval) : option pyval :=
  match home_data with
  | PDict d =>
      match dict_get "property/details" d with
      | Some (PDict details) => dict_get "result" details
      | _ => None
      end
  | _ => None
  end.

Definition object_or_absent (o : option pyval) : bool :=
  match o with
  | None | Some (PDict _) => true
  | Some _ => false
  end.

Definition as_dict (o : option pyval) : dict :=
  match o with
  | Some (PDict d) => d
  | _ => []
  end.

(** A payload of the expected shape: the container is an object whose
    [property] and [assessment] members, where present, are objects. *)
Definition well_formed (home_data : pyval) : bool :=
  match container home_data with
  | Some (PDict result) =>
      object_or_absent (dict_get "property" result)
      && object_or_absent (dict_get "assessment" result)
  | _ => false
  end.

(** The decoded JSON values that cannot be iterated: [None], booleans and
    numbers. *)
Definition not_iterable (v : pyval) : bool :=
  match v with
  | PNone | PBool _ | PInt _ | PFloat _ => true
  | PStr _ | PList _ | PDict _ => false
  end.

(** An item of parsed data that [normalize_home_data] accepts: the sewer
    field with a value of the provider enum. *)
Definition valid_item (kv : string * pyval) : Prop :=
  fst kv = "sewer" /\ in_universe (snd kv) = true.

(** A key/value pair written as a two-element JSON array. *)
Definition pair_item (kv : string * pyval) : pyval :=
  PList [PStr (fst kv); snd kv].

(** A response with status 200 and a JSON body, whatever the query. *)
Definition respond (payload : pyval) : network :=
  fun _ _ => Ok {| status_code := 200; body := Some payload |}.

Definition respond_status (status : Z) : network :=
  fun _ _ => Ok {| status_code := status; body := None |}.

Definition canary_payload (property assessment : dict) : pyval :=
  PDict [("property/details",
          PDict [("api_code", PInt 0);
                 ("result", PDict [("property", PDict property);
                                   ("assessment", PDict assessment)])])].

(** ** The validator and the value table *)

(** The enum call and the table agree on every value: a value is a member's
    value exactly when the table has an entry for it. *)
Lemma call_agrees_with_table (v : pyval) :
  match HouseCanarySewerPropertyDetails.call v with
  | Ok m => table_lookup house_canary_sewer_to_generic v = Some (generic_of m)
            /\ v = PStr (HouseCanarySewerPropertyDetails.value m)
  | Raise e => table_lookup house_canary_sewer_to_generic v = None
               /\ e = ValueError
  end.
Proof.
  destruct v as [| b | z | f | s | l | d];
    try (split; reflexivity).
  unfold HouseCanarySewerPropertyDetails.call; simpl.
  destruct (String.eqb_spec s "Municipal") as [->|_]; [split; reflexivity|].
  destruct (String.eqb_spec s "Septic") as [->|_]; [split; reflexivity|].
  destruct (String.eqb_spec s "Storm") as [->|_]; [split; reflexivity|].
  destruct (String.eqb_spec s "None") as [->|_]; [split; reflexivity|].
  destruct (String.eqb_spec s "Yes") as [->|_]; split; reflexivity.
Qed.

Lemma in_universe_call (v : pyval) :
  in_universe v = true <-> exists m, HouseCanarySewerPropertyDetails.call v = Ok m.
Proof.
  unfold in_universe, HouseCanarySewerPropertyDetails.call.
  split.
  - intros H. apply existsb_exists in H. destruct H as [m [_ Hm]].
    destruct (find _ _) eqn:E.
    + eauto.
    + exfalso. eapply find_none in E.
      * rewrite Hm in E. discriminate.
      * destruct m; simpl; tauto.
  - intros [m Hm]. destruct (find _ _) eqn:E; [|discriminate].
    apply find_some in E. apply existsb_exists. eauto.
Qed.

Lemma not_in_universe_call (v : pyval) :
  in_universe v = false -> HouseCanarySewerPropertyDetails.call v = Raise ValueError.
Proof.
  intros H. pose proof (call_agrees_with_table v) as A.
  destruct (HouseCanarySewerPropertyDetails.call v) as [m|e] eqn:E.
  - assert (in_universe v = true) by (apply in_universe_call; eauto). congruence.
  - destruct A as [_ ->]. reflexivity.
Qed.

(** Normalising a parsed mapping whose only item is the sewer field. *)
Lemma normalize_sewer_value (self : HomeDataSvc) (v : pyval) :
  normalize_home_data self [("sewer", v)] =
  match table_lookup house_canary_sewer_to_generic v with
  | Some c => Ok [("sewer", PStr c)]
  | None => Raise ValueError
  end.
Proof.
  unfold normalize_home_data; simpl.
  pose proof (call_agrees_with_table v) as A.
  destruct (HouseCanarySewerPropertyDetails.call v) as [m|e].
  - destruct A as [-> ->]. destruct m; reflexivity.
  - destruct A as [-> ->]. reflexivity.
Qed.

(** ** Dictionaries *)

Lemma str_in_In (k : string) (l : list string) : str_in k l = true <-> In k l.
Proof.
  unfold str_in. rewrite existsb_exists. split.
  - intros [x [Hx E]]. apply String.eqb_eq in E. now subst.
  - intros H. exists k. split; [assumption | apply String.eqb_refl].
Qed.

Lemma dict_get_set_eq (k : string) (v : pyval) (d : dict) :
  dict_get k (dict_set k v d) = Some v.
Proof.
  induction d as [|[k' v'] d IH]; simpl.
  - now rewrite String.eqb_refl.
  - destruct (String.eqb k k') eqn:E; simpl; rewrite E; auto.
Qed.

Lemma dict_get_set_ne (k k' : string) (v : pyval) (d : dict) :
  k <> k' -> dict_get k' (dict_set k v d) = dict_get k' d.
Proof.
  intros Hne. induction d as [|[k0 v0] d IH]; simpl.
  - apply not_eq_sym in Hne. apply String.eqb_neq in Hne. now rewrite Hne.
  - destruct (String.eqb k k0) eqn:E; simpl.
    + apply String.eqb_eq in E. subst k0.
      apply not_eq_sym in Hne. apply String.eqb_neq in Hne. now rewrite Hne.
    + now rewrite IH.
Qed.

Lemma dict_set_set (k : string) (v v' : pyval) (d : dict) :
  dict_set k v (dict_set k v' d) = dict_set k v d.
Proof.
  induction d as [|[k0 v0] d IH]; simpl.
  - now rewrite String.eqb_refl.
  - destruct (String.eqb k k0) eqn:E; simpl; rewrite E; [reflexivity|].
    now rewrite IH.
Qed.

Lemma dict_get_restrict (keep : list string) (k : string) (d : dict) :
  dict_get k (dict_restrict keep d) =
  if str_in k keep then dict_get k d else None.
Proof.
  induction d as [|[k0 v0] d IH]; simpl.
  - now destruct (str_in k keep).
  - destruct (str_in k0 keep) eqn:E0; simpl.
    + destruct (String.eqb k k0) eqn:E.
      * apply String.eqb_eq in E. subst k0. now rewrite E0.
      * exact IH.
    + destruct (String.eqb k k0) eqn:E.
      * apply String.eqb_eq in E. subst k0. rewrite E0 in IH |- *. exact IH.
      * exact IH.
Qed.

Lemma dict_keys_restrict (keep : list string) (k : string) (d : dict) :
  In k (dict_keys (dict_restrict keep d)) <-> In k (dict_keys d) /\ In k keep.
Proof.
  unfold dict_keys, dict_restrict. rewrite !in_map_iff. split.
  - intros [[k0 v0] [E H]]. apply filter_In in H. destruct H as [H1 H2].
    simpl in *. subst k0. split.
    + exists (k, v0). auto.
    + now apply str_in_In.
  - intros [[[k0 v0] [E H]] Hk]. simpl in E. subst k0.
    exists (k, v0). split; [reflexivity|]. apply filter_In. split; [assumption|].
    simpl. now apply str_in_In.
Qed.

Lemma dict_get_not_in_keys (k : string) (d : dict) :
  ~ In k (dict_keys d) -> dict_get k d = None.
Proof.
  induction d as [|[k0 v0] d IH]; simpl; [reflexivity|].
  intros H. destruct (String.eqb_spec k k0) as [->|_].
  - exfalso. apply H. now left.
  - apply IH. intros Hin. apply H. now right.
Qed.

Lemma dict_get_update_miss (k : string) (other d : dict) :
  dict_get k other = None -> dict_get k (dict_update d other) = dict_get k d.
Proof.
  unfold dict_update. revert d.
  induction other as [|[k0 v0] other IH]; intros d H; simpl in *; [reflexivity|].
  destruct (String.eqb_spec k k0) as [->|Hne]; [discriminate|].
  rewrite IH by assumption. apply dict_get_set_ne. congruence.
Qed.

(** With distinct keys in the argument, as in every Python dict, [update]
    gives each of the argument's keys the argument's value. *)
Lemma dict_get_update_hit (k : string) (v : pyval) (other d : dict) :
  NoDup (dict_keys other) ->
  dict_get k other = Some v -> dict_get k (dict_update d other) = Some v.
Proof.
  unfold dict_update. revert d.
  induction other as [|[k0 v0] other IH]; intros d Hnd H; simpl in *;
    [discriminate|].
  inversion Hnd as [|? ? Hnotin Hnd']; subst.
  destruct (String.eqb_spec k k0) as [->|Hne].
  - injection H as ->.
    change (dict_get k0 (dict_update (dict_set k0 v d) other) = Some v).
    rewrite dict_get_update_miss by now apply dict_get_not_in_keys.
    apply dict_get_set_eq.
  - now apply IH.
Qed.

(** ** Constructed fields *)

Lemma build_fields_missing (self : HomeDataSvc) (d : dict) :
  dict_get "sewer" d = None ->
  _build_constructed_fields self d = Raise (KeyError "sewer").
Proof.
  intros H. unfold _build_constructed_fields, constructed_fields; simpl.
  unfold has_septic, table_getitem; simpl. now rewrite H.
Qed.

Lemma build_fields_present (self : HomeDataSvc) (d : dict) (v : pyval) :
  dict_get "sewer" d = Some v ->
  _build_constructed_fields self d =
  Ok (dict_set "has_septic" (PBool (py_eq_str v "septic")) d).
Proof.
  intros H. unfold _build_constructed_fields, constructed_fields; simpl.
  unfold has_septic, table_getitem; simpl. now rewrite H.
Qed.

Lemma build_fields_again (self : HomeDataSvc) (d d' : dict) :
  _build_constructed_fields self d = Ok d' ->
  _build_constructed_fields self d' = Ok d'.
Proof.
  intros H. destruct (dict_get "sewer" d) as [v|] eqn:E.
  - rewrite (build_fields_present self d v E) in H. injection H as <-.
    rewrite (build_fields_present self _ v).
    + now rewrite dict_set_set.
    + rewrite dict_get_set_ne; [assumption | discriminate].
  - rewrite (build_fields_missing self d E) in H. discriminate.
Qed.

(** ** Normalisation *)

(** One turn of the loop: an unknown field name is a [KeyError], a value
    outside the provider enum a [ValueError], and a member's value is
    written under [sewer] with the table's canonical value. *)
Lemma normalize_items_cons (field_name : string) (value : pyval)
    (rest acc : dict) :
  normalize_items ((field_name, value) :: rest) acc =
  if String.eqb field_name "sewer" then
    match HouseCanarySewerPropertyDetails.call value with
    | Ok m => normalize_items rest (dict_set "sewer" (PStr (generic_of m)) acc)
    | Raise _ => Raise ValueError
    end
  else Raise (KeyError field_name).
Proof.
  cbn [normalize_items]. unfold HouseCanaryFields.getitem.
  change (HouseCanaryFields.name HouseCanaryFields.sewer) with "sewer".
  destruct (String.eqb_spec field_name "sewer") as [->|_]; [|reflexivity].
  cbn [bind HouseCanaryFields.value].
  pose proof (call_agrees_with_table value) as A.
  destruct (HouseCanarySewerPropertyDetails.call value) as [m|e].
  - destruct A as [_ ->]. destruct m; reflexivity.
  - destruct A as [_ ->]. reflexivity.
Qed.

Lemma normalize_items_shape (items acc n : dict) :
  normalized_shape acc ->
  normalize_items items acc = Ok n ->
  normalized_shape n /\ (items <> [] -> n <> []).
Proof.
  revert acc. induction items as [|[field_name value] items IH];
    intros acc Hacc H.
  - injection H as <-. split; [assumption | congruence].
  - rewrite normalize_items_cons in H.
    destruct (String.eqb field_name "sewer"); [|discriminate].
    destruct (HouseCanarySewerPropertyDetails.call value) as [m|e];
      [|discriminate].
    assert (Hstep : normalized_shape
              (dict_set "sewer" (PStr (generic_of m)) acc) /\
            dict_set "sewer" (PStr (generic_of m)) acc <> []).
    { destruct Hacc; simpl; split; try constructor; discriminate. }
    destruct Hstep as [Hs Hne].
    destruct (IH _ Hs H) as [Hn Hn'].
    split; [assumption|]. intros _.
    destruct items as [|it items'].
    + simpl in H. injection H as <-. assumption.
    + apply Hn'. discriminate.
Qed.

Lemma normalize_home_data_shape (self : HomeDataSvc) (home_data n : dict) :
  normalize_home_data self home_data = Ok n -> normalized_shape n.
Proof.
  intros H. eapply normalize_items_shape; [constructor | exact H].
Qed.

(** ** The pipeline *)

Lemma bind_ok {A B : Type} (c : res A) (k : A -> res B) (b : B) :
  bind c k = Ok b -> exists a, c = Ok a /\ k a = Ok b.
Proof. destruct c as [a|e]; simpl; [eauto | discriminate]. Qed.

(** Every mapping the pipeline returns is the pruning of a two-key mapping:
    the sewer field and the constructed field. *)
Lemma pruned_home_data_ok (net : network) (self : HomeDataSvc) (m : dict) :
  pruned_home_data net self = Ok m ->
  exists g,
    m = dict_restrict (expected_fields self)
          [("sewer", PStr (generic_of g));
           ("has_septic", PBool (String.eqb (generic_of g) "septic"))].
Proof.
  unfold pruned_home_data. intros H.
  apply bind_ok in H. destruct H as [fetched [_ H]].
  apply bind_ok in H. destruct H as [_ [_ H]].
  apply bind_ok in H. destruct H as [parsed [_ H]].
  apply bind_ok in H. destruct H as [normalized [Hn H]].
  apply bind_ok in H. destruct H as [built [Hb H]].
  injection H as <-.
  apply normalize_home_data_shape in Hn. destruct Hn as [|g].
  - rewrite build_fields_missing in Hb by reflexivity. discriminate.
  - rewrite (build_fields_present self _ (PStr (generic_of g))) in Hb
      by reflexivity.
    injection Hb as <-. exists g. reflexivity.
Qed.

Lemma build_home_data_ok (net : network) (self : HomeDataSvc) (m : dict) :
  fst (build_home_data net self) = Ok m <-> pruned_home_data net self = Ok m.
Proof.
  unfold build_home_data. destruct (pruned_home_data net self); simpl; tauto.
Qed.

Lemma build_home_data_raise (net : network) (self : HomeDataSvc) (e : exn) :
  pruned_home_data net self = Raise e ->
  build_home_data net self = (Raise e, self).
Proof. unfold build_home_data. now intros ->. Qed.

(** ** Parsing *)

Lemma parse_container_some (self : HomeDataSvc) (home_data result : pyval) :
  container home_data = Some result ->
  parse_home_data self home_data =
  (property_data <- py_get result "property" (PDict []) ;;
   property_assessment <- py_get result "assessment" (PDict []) ;;
   merged <- py_update property_data property_assessment ;;
   Ok (dict_restrict fields_to_retrieve merged)).
Proof.
  unfold container, parse_home_data, py_getitem.
  destruct home_data as [| | | | | |d]; try discriminate.
  destruct (dict_get "property/details" d) as [details|]; [|discriminate].
  destruct details as [| | | | | |dd]; try discriminate.
  cbn [bind]. intros ->. reflexivity.
Qed.

Lemma parse_container_none (self : HomeDataSvc) (home_data : pyval) :
  container home_data = None ->
  parse_home_data self home_data = Raise TypeError
  \/ parse_home_data self home_data = Raise (KeyError "property/details")
  \/ parse_home_data self home_data = Raise (KeyError "result").
Proof.
  unfold container, parse_home_data, py_getitem.
  destruct home_data as [| | | | | |d]; auto.
  destruct (dict_get "property/details" d) as [details|]; auto.
  destruct details as [| | | | | |dd]; auto.
  cbn [bind]. intros ->. auto.
Qed.

Lemma parse_well_formed (self : HomeDataSvc) (home_data : pyval) :
  well_formed home_data = true ->
  exists result,
    container home_data = Some (PDict result) /\
    parse_home_data self home_data =
    Ok (dict_restrict fields_to_retrieve
          (dict_update (as_dict (dict_get "property" result))
                       (as_dict (dict_get "assessment" result)))).
Proof.
  unfold well_formed. intros H.
  destruct (container home_data) as [r|] eqn:C; [|discriminate].
  destruct r as [| | | | | |result]; try discriminate.
  exists result. split; [reflexivity|].
  rewrite (parse_container_some self _ _ C).
  apply andb_prop in H. destruct H as [Hp Ha].
  unfold py_get.
  destruct (dict_get "property" result) as [[| | | | | |p]|];
    try discriminate;
    destruct (dict_get "assessment" result) as [[| | | | | |a]|];
    try discriminate; reflexivity.
Qed.

(** The limit of the expected shape: with the container present, a
    [property] member that is not an object has no [update]. *)
Lemma parse_property_not_object (self : HomeDataSvc)
    (home_data : pyval) (result : dict) (v : pyval) :
  container home_data = Some (PDict result) ->
  dict_get "property" result = Some v ->
  (forall p, v <> PDict p) ->
  parse_home_data self home_data = Raise AttributeError.
Proof.
  intros C Hp Hv. rewrite (parse_container_some self _ _ C).
  unfold py_get. rewrite Hp.
  destruct (dict_get "assessment" result) as [a|];
    destruct v; try reflexivity; exfalso; eapply Hv; reflexivity.
Qed.

(** Whatever the payload, a parsed mapping is some merged mapping cut down
    to the supported fields. *)
Lemma parse_ok_restrict (self : HomeDataSvc) (home_data : pyval) (m : dict) :
  parse_home_data self home_data = Ok m ->
  exists merged, m = dict_restrict fields_to_retrieve merged.
Proof.
  unfold parse_home_data. intros H.
  apply bind_ok in H. destruct H as [details [_ H]].
  apply bind_ok in H. destruct H as [result [_ H]].
  apply bind_ok in H. destruct H as [p [_ H]].
  apply bind_ok in H. destruct H as [a [_ H]].
  apply bind_ok in H. destruct H as [merged [_ H]].
  injection H as <-. now exists merged.
Qed.

Lemma normalize_ok_in_universe (items acc n : dict) :
  normalize_items items acc = Ok n ->
  forall k v, In (k, v) items -> k = "sewer" /\ in_universe v = true.
Proof.
  revert acc. induction items as [|[field_name value] items IH];
    intros acc H k v Hin; [contradiction|].
  rewrite normalize_items_cons in H.
  destruct (String.eqb_spec field_name "sewer") as [->|_]; [|discriminate].
  destruct (HouseCanarySewerPropertyDetails.call value) as [m|e] eqn:E;
    [|discriminate].
  destruct Hin as [Heq|Hin].
  - injection Heq as <- <-. split; [reflexivity|].
    apply in_universe_call. eauto.
  - eapply IH; eassumption.
Qed.

(** * The claims *)

(** C1, as amended.  Normalising the sewer field with provider value [v]:
    when the provider-to-generic table has an entry for [v] the result is
    exactly the mapped canonical value; when it has none, normalisation
    raises [ValueError], because the validator runs before the table
    lookup, and the [existence_unknown] default is not produced. *)
Theorem C1_normalize_mapped_or_rejected (self : HomeDataSvc) (v : pyval) :
  normalize_home_data self [("sewer", v)] =
  match table_lookup house_canary_sewer_to_generic v with
  | Some c => Ok [("sewer", PStr c)]
  | None => Raise ValueError
  end.
Proof. apply normalize_sewer_value. Qed.

(** C1 as written fails: the value "Unknown-Provider-Code" has no table
    entry, and normalising it raises [ValueError] instead of giving
    [sewer = "existence_unknown"]. *)
Lemma C1_unmapped_value_raises :
  table_lookup house_canary_sewer_to_generic (PStr "Unknown-Provider-Code") = None
  /\ normalize_home_data (init ["sewer"] None None)
       [("sewer", PStr "Unknown-Provider-Code")] = Raise ValueError
  /\ normalize_home_data (init ["sewer"] None None)
       [("sewer", PStr "Unknown-Provider-Code")]
     <> Ok [("sewer", PStr "existence_unknown")].
Proof. split; [reflexivity | split; [reflexivity | discriminate]]. Qed.

(** C2, at the failing input.  With the sewer key absent from the
    normalised mapping, [has_septic] raises [KeyError], which the
    [except AttributeError] clause does not catch: the constructed-field
    stage raises instead of skipping the field, and so does the pipeline on
    a payload that has no sewer entry. *)
Theorem C2_missing_dependency_raises (self : HomeDataSvc) :
  _build_constructed_fields self [] = Raise (KeyError "sewer")
  /\ build_home_data (respond (canary_payload [("pool", PStr "Yes")] []))
       self
     = (Raise (KeyError "sewer"), self).
Proof. split; reflexivity. Qed.

(** C3.  Parsed data with provider value "Septic" for sewer normalises to
    [sewer = "septic"] and the constructed field [has_septic] is true; with
    provider value "Yes" it normalises to [sewer = "type_unknown"] and
    [has_septic] is false.  The same holds through the whole pipeline for
    the requested fields. *)
Theorem C3_septic_and_yes_scenarios (self : HomeDataSvc) :
  (normalize_home_data self [("sewer", PStr "Septic")]
     = Ok [("sewer", PStr "septic")]
   /\ _build_constructed_fields self [("sewer", PStr "septic")]
     = Ok [("sewer", PStr "septic"); ("has_septic", PBool true)]
   /\ fst (build_home_data
             (respond (canary_payload [("sewer", PStr "Septic")] []))
             (init ["sewer"; "has_septic"] (address self) (zip_code self)))
     = Ok [("sewer", PStr "septic"); ("has_septic", PBool true)])
  /\
  (normalize_home_data self [("sewer", PStr "Yes")]
     = Ok [("sewer", PStr "type_unknown")]
   /\ _build_constructed_fields self [("sewer", PStr "type_unknown")]
     = Ok [("sewer", PStr "type_unknown"); ("has_septic", PBool false)]
   /\ fst (build_home_data
             (respond (canary_payload [("sewer", PStr "Yes")] []))
             (init ["sewer"; "has_septic"] (address self) (zip_code self)))
     = Ok [("sewer", PStr "type_unknown"); ("has_septic", PBool false)]).
Proof. split; (split; [reflexivity | split; reflexivity]). Qed.

(** C4.  Whenever [build_home_data] returns a mapping, its keys are exactly
    the requested fields that are either producible by the adapter or
    constructed, each once; with no requested field the mapping is empty. *)
Theorem C4_result_keys (net : network) (self : HomeDataSvc) (m : dict) :
  fst (build_home_data net self) = Ok m ->
  (forall k, In k (dict_keys m) <->
             In k (expected_fields self)
             /\ In k (producible_fields ++ constructed_fields))
  /\ NoDup (dict_keys m)
  /\ (expected_fields self = [] -> m = []).
Proof.
  intros H. apply build_home_data_ok in H.
  apply pruned_home_data_ok in H. destruct H as [g ->].
  split; [|split].
  - intros k. rewrite dict_keys_restrict. simpl. tauto.
  - unfold dict_restrict. simpl.
    destruct (str_in "sewer" (expected_fields self));
      destruct (str_in "has_septic" (expected_fields self)); simpl;
      repeat constructor; simpl; intuition discriminate.
  - intros ->. reflexivity.
Qed.

Lemma C4_result_keys_witness :
  fst (build_home_data
         (respond (canary_payload [("sewer", PStr "Septic"); ("pool", PStr "Yes")] []))
         (init ["has_septic"; "pool"] None None))
  = Ok [("has_septic", PBool true)]
  /\ NoDup (dict_keys [("has_septic", PBool true)]).
Proof.
  split; [reflexivity|].
  apply (C4_result_keys
           (respond (canary_payload [("sewer", PStr "Septic"); ("pool", PStr "Yes")] []))
           (init ["has_septic"; "pool"] None None)
           [("has_septic", PBool true)] eq_refl).
Defined.

(** C5.  A value of the sewer field that is not a value of the provider's
    enum makes normalisation raise [ValueError], whatever follows it in the
    parsed data and whether or not the table maps it; no normalisation
    succeeds on parsed data holding such a value; and in the pipeline the
    exception is not caught: it comes out of [build_home_data], which
    leaves the instance as it was. *)
Theorem C5_value_outside_universe_raises
    (net : network) (self : HomeDataSvc) (v : pyval) :
  in_universe v = false ->
  (forall rest, normalize_home_data self (("sewer", v) :: rest) = Raise ValueError)
  /\ (forall items n, In ("sewer", v) items ->
                      normalize_home_data self items <> Ok n)
  /\ (forall payload rest,
        fetch_home_data net self = Ok payload ->
        parse_home_data self payload = Ok (("sewer", v) :: rest) ->
        build_home_data net self = (Raise ValueError, self)).
Proof.
  intros Hv.
  assert (Hn : forall rest,
             normalize_home_data self (("sewer", v) :: rest) = Raise ValueError).
  { intros rest. unfold normalize_home_data. rewrite normalize_items_cons.
    now rewrite (not_in_universe_call v Hv). }
  split; [exact Hn | split].
  - intros items n Hin H.
    destruct (normalize_ok_in_universe items [] n H "sewer" v Hin) as [_ Hu].
    congruence.
  - intros payload rest Hf Hp. apply build_home_data_raise.
    unfold pruned_home_data. rewrite Hf. cbn [bind save_to_file].
    rewrite Hp. cbn [bind]. now rewrite Hn.
Qed.

Lemma C5_value_outside_universe_raises_witness :
  in_universe (PStr "Unknown-Provider-Code") = false
  /\ build_home_data
       (respond (canary_payload [] [("sewer", PStr "Unknown-Provider-Code")]))
       (init ["sewer"] None None)
     = (Raise ValueError, init ["sewer"] None None).
Proof.
  split; [reflexivity|].
  apply (proj2 (proj2
           (C5_value_outside_universe_raises
              (respond (canary_payload [] [("sewer", PStr "Unknown-Provider-Code")]))
              (init ["sewer"] None None)
              (PStr "Unknown-Provider-Code") eq_refl))
           (canary_payload [] [("sewer", PStr "Unknown-Provider-Code")]) []);
    reflexivity.
Defined.

(** C6.  A payload without the container
    [home_data['property/details']['result']] makes [parse_home_data]
    fail: the subscript raises [KeyError] for a missing key and [TypeError]
    when the value subscripted is not an object.  A payload of the expected
    shape never fails: the merged [property] and [assessment] objects are
    cut down to the supported fields, every other key being dropped. *)
Theorem C6_parse_container (self : HomeDataSvc) (home_data : pyval) :
  (container home_data = None ->
   exists e, parse_home_data self home_data = Raise e
             /\ (e = TypeError \/ e = KeyError "property/details"
                 \/ e = KeyError "result"))
  /\
  (well_formed home_data = true ->
   exists result parsed,
     container home_data = Some (PDict result)
     /\ parse_home_data self home_data = Ok parsed
     /\ parsed = dict_restrict fields_to_retrieve
                   (dict_update (as_dict (dict_get "property" result))
                                (as_dict (dict_get "assessment" result)))
     /\ forall k, In k (dict_keys parsed) -> In k fields_to_retrieve).
Proof.
  split.
  - intros H. destruct (parse_container_none self home_data H) as [E|[E|E]];
      rewrite E; eauto 6.
  - intros H. destruct (parse_well_formed self home_data H) as [result [C E]].
    exists result. eexists. split; [exact C|]. split; [exact E|].
    split; [reflexivity|]. intros k Hk.
    apply dict_keys_restrict in Hk. tauto.
Qed.

Lemma C6_parse_container_witness :
  (container (PDict [("status", PStr "ok")]) = None
   /\ exists e, parse_home_data (init ["sewer"] None None)
                  (PDict [("status", PStr "ok")]) = Raise e
                /\ (e = TypeError \/ e = KeyError "property/details"
                    \/ e = KeyError "result"))
  /\
  (well_formed (canary_payload [("pool", PStr "Yes"); ("sewer", PStr "Storm")]
                               [("apn", PInt 7)]) = true
   /\ parse_home_data (init ["sewer"] None None)
        (canary_payload [("pool", PStr "Yes"); ("sewer", PStr "Storm")]
                        [("apn", PInt 7)])
      = Ok [("sewer", PStr "Storm")]).
Proof.
  split.
  - split; [reflexivity|].
    apply (proj1 (C6_parse_container (init ["sewer"] None None)
                    (PDict [("status", PStr "ok")])) eq_refl).
  - split; [reflexivity|].
    destruct (proj2 (C6_parse_container (init ["sewer"] None None)
                       (canary_payload
                          [("pool", PStr "Yes"); ("sewer", PStr "Storm")]
                          [("apn", PInt 7)])) eq_refl)
      as [result [parsed [C [E [-> _]]]]].
    injection C as <-. exact E.
Defined.

(** C7.  When the fetch stage fails, by an exception of the request itself
    (connection failure, timeout) or by a 4xx/5xx status such as 500, that
    exception comes out of [build_home_data] unchanged: nothing is
    returned, and the instance, its [data] included, is as before. *)
Theorem C7_fetch_failure_aborts (net : network) (self : HomeDataSvc) :
  (forall e, fetch_home_data net self = Raise e ->
             build_home_data net self = (Raise e, self))
  /\ (forall e, net (address self) (zip_code self) = Raise e ->
                fetch_home_data net self = Raise e)
  /\ (forall response,
        net (address self) (zip_code self) = Ok response ->
        (400 <= status_code response < 600)%Z ->
        fetch_home_data net self = Raise (HTTPError (status_code response))).
Proof.
  split; [|split].
  - intros e H. apply build_home_data_raise.
    unfold pruned_home_data. now rewrite H.
  - intros e H. unfold fetch_home_data. now rewrite H.
  - intros response H Hs. unfold fetch_home_data, raise_for_status.
    rewrite H. cbn [bind].
    destruct (Z.leb_spec 400 (status_code response)); [|lia].
    destruct (Z.ltb_spec (status_code response) 600); [|lia].
    reflexivity.
Qed.

Lemma C7_fetch_failure_aborts_witness :
  fetch_home_data (respond_status 500) (init ["sewer"] None None)
    = Raise (HTTPError 500)
  /\ build_home_data (respond_status 500) (init ["sewer"] None None)
     = (Raise (HTTPError 500), init ["sewer"] None None)
  /\ fetch_home_data (fun _ _ => Raise RequestsTimeout) (init ["sewer"] None None)
     = Raise RequestsTimeout.
Proof.
  split; [|split].
  - apply (proj2 (proj2 (C7_fetch_failure_aborts (respond_status 500)
                           (init ["sewer"] None None)))
             {| status_code := 500; body := None |} eq_refl).
    simpl. lia.
  - apply (proj1 (C7_fetch_failure_aborts (respond_status 500)
                    (init ["sewer"] None None)) (HTTPError 500)).
    reflexivity.
  - apply (proj1 (proj2 (C7_fetch_failure_aborts
                           (fun _ _ => Raise RequestsTimeout)
                           (init ["sewer"] None None))) RequestsTimeout).
    reflexivity.
Defined.

(** C8, as amended.  The mapping returned by [parse_home_data] contains
    only provider fields the adapter declares as supported; the requested
    fields play no part in parsing, so two instances that differ in them
    parse a payload alike. *)
Theorem C8_parse_keeps_supported_fields
    (self self' : HomeDataSvc) (home_data : pyval) :
  parse_home_data self home_data = parse_home_data self' home_data
  /\ forall parsed, parse_home_data self home_data = Ok parsed ->
                    forall k, In k (dict_keys parsed) -> In k fields_to_retrieve.
Proof.
  split; [reflexivity|].
  intros parsed H k Hk. apply parse_ok_restrict in H. destruct H as [merged ->].
  apply dict_keys_restrict in Hk. tauto.
Qed.

Lemma C8_parse_keeps_supported_fields_witness :
  parse_home_data (init ["has_septic"] None None)
    (canary_payload [("sewer", PStr "Septic"); ("pool", PStr "Yes")] [])
  = Ok [("sewer", PStr "Septic")]
  /\ In "sewer" fields_to_retrieve.
Proof.
  split; [reflexivity|].
  apply (proj2 (C8_parse_keeps_supported_fields
                  (init ["has_septic"] None None) (init [] None None)
                  (canary_payload [("sewer", PStr "Septic"); ("pool", PStr "Yes")] []))
           [("sewer", PStr "Septic")] eq_refl "sewer").
  simpl. now left.
Defined.

(** C8 as written fails: with only [has_septic] requested, the parsed
    mapping still holds the supported field [sewer], whose canonical
    counterpart was not requested. *)
Lemma C8_unrequested_field_is_parsed :
  ~ (forall (self : HomeDataSvc) (home_data : pyval) (parsed : dict) (k : string),
       parse_home_data self home_data = Ok parsed ->
       In k (dict_keys parsed) ->
       In k fields_to_retrieve
       /\ exists g, dict_get k house_canary_field_to_generic = Some g
                    /\ In (GenericFieldsToMappings.name g) (expected_fields self)).
Proof.
  intros H.
  destruct (H (init ["has_septic"] None None)
              (canary_payload [("sewer", PStr "Septic")] [])
              [("sewer", PStr "Septic")] "sewer" eq_refl (or_introl eq_refl))
    as [_ [g [Hg Hin]]].
  destruct g. simpl in Hin. intuition discriminate.
Qed.

(** C9.  Every value of the provider enum has an entry in the
    provider-to-generic table, so a value that passes validation always
    hits the table and [get] never falls back on its default: a normalised
    sewer value is never [existence_unknown]. *)
Theorem C9_validated_values_have_entries :
  (forall m : HouseCanarySewerPropertyDetails.t,
     table_lookup house_canary_sewer_to_generic
       (PStr (HouseCanarySewerPropertyDetails.value m)) = Some (generic_of m))
  /\ (forall v m,
        HouseCanarySewerPropertyDetails.call v = Ok m ->
        table_lookup house_canary_sewer_to_generic v = Some (generic_of m)
        /\ table_get house_canary_sewer_to_generic v sewer_default
           = Ok (generic_of m))
  /\ (forall self home_data normalized,
        normalize_home_data self home_data = Ok normalized ->
        dict_get "sewer" normalized <> Some (PStr sewer_default)).
Proof.
  split; [|split].
  - intros m. destruct m; reflexivity.
  - intros v m H. pose proof (call_agrees_with_table v) as A.
    rewrite H in A. destruct A as [A ->]. split; [exact A|].
    destruct m; reflexivity.
  - intros self home_data normalized H.
    apply normalize_home_data_shape in H. destruct H as [|m].
    + discriminate.
    + destruct m; discriminate.
Qed.

Lemma C9_validated_values_have_entries_witness :
  HouseCanarySewerPropertyDetails.call (PStr "None")
    = Ok HouseCanarySewerPropertyDetails.none
  /\ table_get house_canary_sewer_to_generic (PStr "None") sewer_default
     = Ok "no_sewer"
  /\ dict_get "sewer" [("sewer", PStr "no_sewer")] <> Some (PStr sewer_default).
Proof.
  split; [reflexivity|]. split.
  - apply (proj2 (proj1 (proj2 C9_validated_values_have_entries)
                    (PStr "None") HouseCanarySewerPropertyDetails.none eq_refl)).
  - apply (proj2 (proj2 C9_validated_values_have_entries)
             (init ["sewer"] None None) [("sewer", PStr "None")]
             [("sewer", PStr "no_sewer")] eq_refl).
Defined.

(** C10.  When the payload's [property] object and its [assessment] object
    both define a key, the merged mapping holds the value from
    [assessment]; that is the value the parsed mapping has for the key when
    the key is a supported field (any other key is dropped from it). *)
Theorem C10_assessment_overrides_property
    (self : HomeDataSvc) (home_data : pyval) (result p a : dict)
    (k : string) (vp va : pyval) :
  container home_data = Some (PDict result) ->
  dict_get "property" result = Some (PDict p) ->
  dict_get "assessment" result = Some (PDict a) ->
  NoDup (dict_keys a) ->
  dict_get k p = Some vp ->
  dict_get k a = Some va ->
  dict_get k (dict_update p a) = Some va
  /\ exists parsed,
       parse_home_data self home_data = Ok parsed
       /\ dict_get k parsed =
          if str_in k fields_to_retrieve then Some va else None.
Proof.
  intros C Hp Ha Hnd Hkp Hka.
  pose proof (dict_get_update_hit k va a p Hnd Hka) as Hm.
  split; [exact Hm|].
  exists (dict_restrict fields_to_retrieve (dict_update p a)). split.
  - rewrite (parse_container_some self _ _ C).
    unfold py_get. rewrite Hp, Ha. reflexivity.
  - rewrite dict_get_restrict. now rewrite Hm.
Qed.

Lemma C10_assessment_overrides_property_witness :
  parse_home_data (init ["sewer"] None None)
    (canary_payload [("sewer", PStr "Yes"); ("pool", PStr "No")]
                    [("pool", PStr "Yes"); ("sewer", PStr "Septic")])
  = Ok [("sewer", PStr "Septic")]
  /\ dict_get "sewer"
       (dict_update [("sewer", PStr "Yes"); ("pool", PStr "No")]
                    [("pool", PStr "Yes"); ("sewer", PStr "Septic")])
     = Some (PStr "Septic").
Proof.
  split; [reflexivity|].
  apply (proj1 (C10_assessment_overrides_property
                  (init ["sewer"] None None)
                  (canary_payload [("sewer", PStr "Yes"); ("pool", PStr "No")]
                                  [("pool", PStr "Yes"); ("sewer", PStr "Septic")])
                  [("property", PDict [("sewer", PStr "Yes"); ("pool", PStr "No")]);
                   ("assessment", PDict [("pool", PStr "Yes"); ("sewer", PStr "Septic")])]
                  [("sewer", PStr "Yes"); ("pool", PStr "No")]
                  [("pool", PStr "Yes"); ("sewer", PStr "Septic")]
                  "sewer" (PStr "Yes") (PStr "Septic")
                  eq_refl eq_refl eq_refl
                  ltac:(repeat constructor; simpl; intuition discriminate)
                  eq_refl eq_refl)).
Defined.

(** * Further properties of the service *)

(** ** More on dictionaries *)

Lemma dict_keys_set (k k' : string) (v : pyval) (d : dict) :
  In k' (dict_keys (dict_set k v d)) <-> k' = k \/ In k' (dict_keys d).
Proof.
  induction d as [|[k0 v0] d IH]; simpl.
  - intuition.
  - destruct (String.eqb_spec k k0) as [->|Hne]; simpl.
    + intuition.
    + rewrite IH. intuition.
Qed.

Lemma dict_set_NoDup (k : string) (v : pyval) (d : dict) :
  NoDup (dict_keys d) -> NoDup (dict_keys (dict_set k v d)).
Proof.
  induction d as [|[k0 v0] d IH]; simpl; intros H.
  - constructor; [intros [] | constructor].
  - inversion H as [|? ? Hnotin Hnd]; subst.
    destruct (String.eqb_spec k k0) as [->|Hne]; simpl.
    + now constructor.
    + constructor; [|now apply IH].
      intros Hin. apply dict_keys_set in Hin. destruct Hin as [->|Hin]; auto.
Qed.

Lemma dict_update_NoDup (other d : dict) :
  NoDup (dict_keys d) -> NoDup (dict_keys (dict_update d other)).
Proof.
  unfold dict_update. revert d.
  induction other as [|[k v] other IH]; intros d H; simpl; [assumption|].
  apply IH. now apply dict_set_NoDup.
Qed.

Lemma dict_restrict_set (keep : list string) (k : string) (v : pyval) (d : dict) :
  dict_restrict keep (dict_set k v d) =
  if str_in k keep then dict_set k v (dict_restrict keep d)
  else dict_restrict keep d.
Proof.
  induction d as [|[k0 v0] d IH]; simpl.
  - now destruct (str_in k keep).
  - destruct (String.eqb_spec k k0) as [->|Hne]; simpl.
    + destruct (str_in k0 keep); simpl; [|reflexivity].
      now rewrite String.eqb_refl.
    + rewrite IH. destruct (str_in k0 keep) eqn:E0;
        destruct (str_in k keep); simpl; try reflexivity.
      apply String.eqb_neq in Hne. now rewrite Hne.
Qed.

(** Cutting a merged mapping down to some keys is merging the two mappings
    cut down to those keys. *)
Lemma dict_restrict_update (keep : list string) (other d : dict) :
  dict_restrict keep (dict_update d other) =
  dict_update (dict_restrict keep d) (dict_restrict keep other).
Proof.
  unfold dict_update. revert d.
  induction other as [|[k v] other IH]; intros d; simpl; [reflexivity|].
  rewrite IH, dict_restrict_set.
  destruct (str_in k keep); reflexivity.
Qed.

Lemma dict_restrict_single (k : string) (d : dict) :
  NoDup (dict_keys d) ->
  dict_restrict [k] d =
  match dict_get k d with
  | Some v => [(k, v)]
  | None => []
  end.
Proof.
  induction d as [|[k0 v0] d IH]; simpl; intros H; [reflexivity|].
  inversion H as [|? ? Hnotin Hnd]; subst.
  rewrite orb_false_r.
  destruct (String.eqb_spec k0 k) as [->|Hne].
  - rewrite String.eqb_refl. rewrite (IH Hnd).
    now rewrite (dict_get_not_in_keys k d Hnotin).
  - apply not_eq_sym in Hne. apply String.eqb_neq in Hne. rewrite Hne.
    now apply IH.
Qed.

Lemma dict_restrict_ext (keep keep' : list string) (d : dict) :
  (forall k, In k keep <-> In k keep') ->
  dict_restrict keep d = dict_restrict keep' d.
Proof.
  intros H. unfold dict_restrict. apply filter_ext. intros [k v]; simpl.
  destruct (str_in k keep) eqn:E; destruct (str_in k keep') eqn:E';
    try reflexivity.
  - apply str_in_In in E. apply H in E. apply str_in_In in E. congruence.
  - apply str_in_In in E'. apply H in E'. apply str_in_In in E'. congruence.
Qed.

(** ** parse_home_data *)

(** X1.  For a payload of the expected shape, the parsed mapping gives a
    supported field the value of the [assessment] object when that object
    has the field, otherwise the value of the [property] object, and
    nothing when neither has it; a field that is not supported is never in
    the parsed mapping. *)
Theorem X1_parse_lookup (self : HomeDataSvc) (home_data : pyval) (result : dict) :
  container home_data = Some (PDict result) ->
  well_formed home_data = true ->
  NoDup (dict_keys (as_dict (dict_get "assessment" result))) ->
  exists parsed,
    parse_home_data self home_data = Ok parsed
    /\ forall k,
         dict_get k parsed =
         if str_in k fields_to_retrieve then
           match dict_get k (as_dict (dict_get "assessment" result)) with
           | Some v => Some v
           | None => dict_get k (as_dict (dict_get "property" result))
           end
         else None.
Proof.
  intros C W Hnd.
  destruct (parse_well_formed self home_data W) as [result' [C' E]].
  rewrite C in C'. injection C' as <-.
  eexists. split; [exact E|]. intros k.
  rewrite dict_get_restrict. destruct (str_in k fields_to_retrieve); [|reflexivity].
  destruct (dict_get k (as_dict (dict_get "assessment" result))) as [v|] eqn:Ea.
  - now apply dict_get_update_hit.
  - now apply dict_get_update_miss.
Qed.

Lemma X1_parse_lookup_witness :
  exists parsed,
    parse_home_data (init [] None None)
      (PDict [("property/details",
               PDict [("result",
                       PDict [("property", PDict [("sewer", PStr "Storm")])])])])
    = Ok parsed
    /\ dict_get "sewer" parsed = Some (PStr "Storm").
Proof.
  destruct (X1_parse_lookup (init [] None None)
              (PDict [("property/details",
                       PDict [("result",
                               PDict [("property", PDict [("sewer", PStr "Storm")])])])])
              [("property", PDict [("sewer", PStr "Storm")])]
              eq_refl eq_refl (NoDup_nil _)) as [parsed [E H]].
  exists parsed. split; [exact E | exact (H "sewer")].
Defined.

(** X2.  Keys that are not supported fields have no influence on parsing:
    two payloads of the expected shape whose [property] objects agree on
    the supported fields, and whose [assessment] objects do, are parsed to
    the same mapping, which is the merge of the two objects cut down to the
    supported fields. *)
Theorem X2_parse_ignores_unsupported_keys
    (self self' : HomeDataSvc) (home_data home_data' : pyval)
    (result result' : dict) :
  container home_data = Some (PDict result) ->
  container home_data' = Some (PDict result') ->
  well_formed home_data = true ->
  well_formed home_data' = true ->
  dict_restrict fields_to_retrieve (as_dict (dict_get "property" result))
  = dict_restrict fields_to_retrieve (as_dict (dict_get "property" result')) ->
  dict_restrict fields_to_retrieve (as_dict (dict_get "assessment" result))
  = dict_restrict fields_to_retrieve (as_dict (dict_get "assessment" result')) ->
  parse_home_data self home_data = parse_home_data self' home_data'
  /\ parse_home_data self home_data
     = Ok (dict_update
             (dict_restrict fields_to_retrieve (as_dict (dict_get "property" result)))
             (dict_restrict fields_to_retrieve (as_dict (dict_get "assessment" result)))).
Proof.
  intros C C' W W' Hp Ha.
  destruct (parse_well_formed self home_data W) as [r [Cr E]].
  rewrite C in Cr. injection Cr as <-.
  destruct (parse_well_formed self' home_data' W') as [r' [Cr' E']].
  rewrite C' in Cr'. injection Cr' as <-.
  rewrite E, E', !dict_restrict_update, Hp, Ha. split; reflexivity.
Qed.

Lemma X2_parse_ignores_unsupported_keys_witness :
  parse_home_data (init ["sewer"] None None)
    (canary_payload [("pool", PStr "Yes"); ("sewer", PStr "Storm")]
                    [("apn", PInt 7)])
  = parse_home_data (init [] None None)
      (canary_payload [("sewer", PStr "Storm")] [("year_built", PInt 1977)]).
Proof.
  apply (proj1 (X2_parse_ignores_unsupported_keys
                  (init ["sewer"] None None) (init [] None None)
                  (canary_payload [("pool", PStr "Yes"); ("sewer", PStr "Storm")]
                                  [("apn", PInt 7)])
                  (canary_payload [("sewer", PStr "Storm")]
                                  [("year_built", PInt 1977)])
                  [("property", PDict [("pool", PStr "Yes"); ("sewer", PStr "Storm")]);
                   ("assessment", PDict [("apn", PInt 7)])]
                  [("property", PDict [("sewer", PStr "Storm")]);
                   ("assessment", PDict [("year_built", PInt 1977)])]
                  eq_refl eq_refl eq_refl eq_refl eq_refl eq_refl)).
Defined.

(** X3.  With the container present, parsing still fails when a member is
    not an object: a [result] or a [property] that is not an object raises
    [AttributeError] (it has no [get], no [update]), and an [assessment]
    that is [None], a boolean or a number raises [TypeError] (it cannot be
    iterated by [update]). *)
Theorem X3_parse_member_not_object
    (self : HomeDataSvc) (home_data result : pyval) :
  container home_data = Some result ->
  ((forall r, result <> PDict r) ->
   parse_home_data self home_data = Raise AttributeError)
  /\ (forall r v,
        result = PDict r ->
        dict_get "property" r = Some v ->
        (forall p, v <> PDict p) ->
        parse_home_data self home_data = Raise AttributeError)
  /\ (forall r v,
        result = PDict r ->
        object_or_absent (dict_get "property" r) = true ->
        dict_get "assessment" r = Some v ->
        not_iterable v = true ->
        parse_home_data self home_data = Raise TypeError).
Proof.
  intros C. rewrite (parse_container_some self _ _ C). split; [|split].
  - intros H. destruct result; try reflexivity. exfalso. eapply H. reflexivity.
  - intros r v -> Hp Hv. eapply parse_property_not_object in Hp; eauto.
    now rewrite (parse_container_some self _ _ C) in Hp.
  - intros r v -> Hp Ha Hv. unfold py_get. rewrite Ha.
    destruct (dict_get "property" r) as [[| | | | | |p]|]; try discriminate;
      destruct v; try discriminate; reflexivity.
Qed.

Lemma X3_parse_member_not_object_witness :
  parse_home_data (init ["sewer"] None None)
    (PDict [("property/details",
             PDict [("result", PDict [("property", PNone)])])])
  = Raise AttributeError
  /\ parse_home_data (init ["sewer"] None None)
       (PDict [("property/details",
                PDict [("result", PDict [("assessment", PNone)])])])
     = Raise TypeError
  /\ parse_home_data (init ["sewer"] None None)
       (PDict [("property/details", PDict [("result", PList [])])])
     = Raise AttributeError.
Proof.
  split; [|split].
  - apply (proj1 (proj2 (X3_parse_member_not_object (init ["sewer"] None None)
                           (PDict [("property/details",
                                    PDict [("result", PDict [("property", PNone)])])])
                           (PDict [("property", PNone)]) eq_refl))
             [("property", PNone)] PNone eq_refl eq_refl).
    intros p. discriminate.
  - apply (proj2 (proj2 (X3_parse_member_not_object (init ["sewer"] None None)
                           (PDict [("property/details",
                                    PDict [("result", PDict [("assessment", PNone)])])])
                           (PDict [("assessment", PNone)]) eq_refl))
             [("assessment", PNone)] PNone eq_refl eq_refl eq_refl eq_refl).
  - apply (proj1 (X3_parse_member_not_object (init ["sewer"] None None)
                    (PDict [("property/details", PDict [("result", PList [])])])
                    (PList []) eq_refl)).
    intros r. discriminate.
Defined.

(** ** normalize_home_data *)

Lemma normalize_items_valid (items : dict) :
  Forall valid_item items ->
  forall acc, exists n, normalize_items items acc = Ok n.
Proof.
  induction 1 as [|[k v] items [Hk Hv] _ IH]; intros acc.
  - exists acc. reflexivity.
  - simpl in Hk, Hv. subst k. rewrite normalize_items_cons. simpl.
    apply in_universe_call in Hv. destruct Hv as [m ->]. apply IH.
Qed.

Lemma normalize_items_app_valid (before rest : dict) :
  Forall valid_item before ->
  forall acc, exists acc', normalize_items (before ++ rest)%list acc
                           = normalize_items rest acc'.
Proof.
  induction 1 as [|[k v] before [Hk Hv] _ IH]; intros acc.
  - exists acc. reflexivity.
  - simpl in Hk, Hv. subst k. simpl app. rewrite normalize_items_cons. simpl.
    apply in_universe_call in Hv. destruct Hv as [m ->]. apply IH.
Qed.

Lemma normalize_items_sewer_only (items : dict) :
  (forall k, In k (dict_keys items) -> k = "sewer") ->
  forall acc e, normalize_items items acc = Raise e -> e = ValueError.
Proof.
  induction items as [|[k v] items IH]; intros Hk acc e H; [discriminate|].
  rewrite normalize_items_cons in H.
  rewrite (Hk k (or_introl eq_refl)) in H. simpl in H.
  destruct (HouseCanarySewerPropertyDetails.call v) as [m|e'].
  - eapply IH; [|exact H]. intros k' Hin. apply Hk. now right.
  - now injection H as <-.
Qed.

(** X4.  [normalize_home_data] returns a mapping exactly when every item
    of the parsed data is the sewer field with a value of the provider
    enum. *)
Theorem X4_normalize_succeeds_iff (self : HomeDataSvc) (home_data : dict) :
  (exists normalized, normalize_home_data self home_data = Ok normalized)
  <-> Forall valid_item home_data.
Proof.
  split.
  - intros [n H]. apply Forall_forall. intros [k v] Hin.
    exact (normalize_ok_in_universe home_data [] n H k v Hin).
  - intros H. apply normalize_items_valid. exact H.
Qed.

Lemma X4_normalize_succeeds_iff_witness :
  (exists normalized,
     normalize_home_data (init [] None None) [("sewer", PStr "Storm")]
     = Ok normalized)
  /\ Forall valid_item [("sewer", PStr "Storm")].
Proof.
  assert (H : Forall valid_item [("sewer", PStr "Storm")]).
  { constructor; [split; reflexivity | constructor]. }
  split; [|exact H].
  apply (proj2 (X4_normalize_succeeds_iff (init [] None None)
                  [("sewer", PStr "Storm")]) H).
Defined.

(** X5.  The first item that is not acceptable decides the exception of
    [normalize_home_data]: a field name other than the supported one is a
    [KeyError] carrying that name, whatever its value, and a sewer value
    outside the provider enum is a [ValueError]. *)
Theorem X5_normalize_first_offender
    (self : HomeDataSvc) (before rest : dict) (k : string) (v : pyval) :
  Forall valid_item before ->
  (k <> "sewer" ->
   normalize_home_data self (before ++ (k, v) :: rest)%list = Raise (KeyError k))
  /\ (k = "sewer" -> in_universe v = false ->
      normalize_home_data self (before ++ (k, v) :: rest)%list = Raise ValueError).
Proof.
  intros Hb. unfold normalize_home_data.
  destruct (normalize_items_app_valid before ((k, v) :: rest) Hb []) as [acc ->].
  rewrite normalize_items_cons. split.
  - intros Hne. apply String.eqb_neq in Hne. now rewrite Hne.
  - intros -> Hv. simpl. now rewrite (not_in_universe_call v Hv).
Qed.

Lemma X5_normalize_first_offender_witness :
  normalize_home_data (init [] None None)
    [("sewer", PStr "Yes"); ("pool", PStr "Septic"); ("spa", PInt 3)]
  = Raise (KeyError "pool")
  /\ normalize_home_data (init [] None None)
       [("sewer", PStr "septic"); ("pool", PStr "Yes")]
     = Raise ValueError.
Proof.
  assert (H : Forall valid_item [("sewer", PStr "Yes")]).
  { constructor; [split; reflexivity | constructor]. }
  split.
  - apply (proj1 (X5_normalize_first_offender (init [] None None)
                    [("sewer", PStr "Yes")] [("spa", PInt 3)]
                    "pool" (PStr "Septic") H)).
    discriminate.
  - apply (proj2 (X5_normalize_first_offender (init [] None None)
                    [] [("pool", PStr "Yes")]
                    "sewer" (PStr "septic") (Forall_nil _))); reflexivity.
Defined.

(** X6.  Parsed data always passes the field-name lookups of
    normalisation: whatever the payload, normalising the mapping returned
    by [parse_home_data] raises no [KeyError], no [TypeError]; the only
    exception it can raise is the [ValueError] of the validator. *)
Theorem X6_normalize_after_parse
    (self : HomeDataSvc) (home_data : pyval) (parsed : dict) (e : exn) :
  parse_home_data self home_data = Ok parsed ->
  normalize_home_data self parsed = Raise e ->
  e = ValueError.
Proof.
  intros Hp Hn. apply parse_ok_restrict in Hp. destruct Hp as [merged ->].
  eapply normalize_items_sewer_only; [|exact Hn].
  intros k Hk. apply dict_keys_restrict in Hk. destruct Hk as [_ [<-|[]]].
  reflexivity.
Qed.

Lemma X6_normalize_after_parse_witness :
  parse_home_data (init [] None None)
    (canary_payload [("sewer", PInt 3); ("pool", PStr "Yes")] [])
  = Ok [("sewer", PInt 3)]
  /\ normalize_home_data (init [] None None) [("sewer", PInt 3)]
     = Raise ValueError
  /\ ValueError = ValueError.
Proof.
  split; [reflexivity|]. split; [reflexivity|].
  apply (X6_normalize_after_parse (init [] None None)
           (canary_payload [("sewer", PInt 3); ("pool", PStr "Yes")] [])
           [("sewer", PInt 3)] ValueError eq_refl eq_refl).
Defined.

(** X7.  Normalisation loses nothing of the sewer value: two provider
    values that normalise to the same mapping are the same value. *)
Theorem X7_normalize_injective (self : HomeDataSvc) (v v' : pyval) (n : dict) :
  normalize_home_data self [("sewer", v)] = Ok n ->
  normalize_home_data self [("sewer", v')] = Ok n ->
  v = v'.
Proof.
  rewrite !normalize_sewer_value.
  pose proof (call_agrees_with_table v) as A.
  pose proof (call_agrees_with_table v') as A'.
  destruct (HouseCanarySewerPropertyDetails.call v) as [m|e];
    destruct A as [-> A]; [|discriminate].
  destruct (HouseCanarySewerPropertyDetails.call v') as [m'|e'];
    destruct A' as [-> A']; [|discriminate].
  subst v v'. intros H H'. rewrite <- H' in H.
  destruct m; destruct m'; try reflexivity; discriminate.
Qed.

Lemma X7_normalize_injective_witness :
  normalize_home_data (init [] None None) [("sewer", PStr "None")]
  = Ok [("sewer", PStr "no_sewer")]
  /\ PStr "None" = PStr "None".
Proof.
  split; [reflexivity|].
  apply (X7_normalize_injective (init [] None None) (PStr "None") (PStr "None")
           [("sewer", PStr "no_sewer")] eq_refl eq_refl).
Defined.

(** ** Constructed fields and the pipeline *)

(** X8.  When the normalised mapping has the sewer field, the
    constructed-field stage returns: [has_septic] is the boolean "the sewer
    value is the string septic", every other entry is kept as it was, no
    other key is added, and running the stage again on its result changes
    nothing. *)
Theorem X8_constructed_fields_present
    (self : HomeDataSvc) (normalized_data : dict) (v : pyval) :
  dict_get "sewer" normalized_data = Some v ->
  exists d,
    _build_constructed_fields self normalized_data = Ok d
    /\ dict_get "has_septic" d = Some (PBool (py_eq_str v "septic"))
    /\ (forall k, k <> "has_septic" -> dict_get k d = dict_get k normalized_data)
    /\ (forall k, In k (dict_keys d) <->
                  k = "has_septic" \/ In k (dict_keys normalized_data))
    /\ _build_constructed_fields self d = Ok d.
Proof.
  intros H. pose proof (build_fields_present self normalized_data v H) as E.
  eexists. split; [exact E|]. split; [apply dict_get_set_eq|].
  split; [|split].
  - intros k Hk. apply dict_get_set_ne. congruence.
  - intros k. apply dict_keys_set.
  - eapply build_fields_again. exact E.
Qed.

Lemma X8_constructed_fields_present_witness :
  exists d,
    _build_constructed_fields (init [] None None)
      [("sewer", PStr "storm"); ("has_septic", PStr "stale")] = Ok d
    /\ dict_get "has_septic" d = Some (PBool false)
    /\ dict_get "sewer" d = Some (PStr "storm").
Proof.
  destruct (X8_constructed_fields_present (init [] None None)
              [("sewer", PStr "storm"); ("has_septic", PStr "stale")]
              (PStr "storm") eq_refl) as [d [E [Hs [Hk _]]]].
  exists d. split; [exact E|]. split; [exact Hs|].
  rewrite (Hk "sewer"); [reflexivity | discriminate].
Defined.

(** X9.  A mapping returned by [build_home_data] is determined by one
    member of the generic sewer enum, which is never [existence_unknown]:
    it is the pruning of the mapping that gives [sewer] that member's value
    and [has_septic] the boolean "the member is septic". *)
Theorem X9_result_values (net : network) (self : HomeDataSvc) (m : dict) :
  fst (build_home_data net self) = Ok m ->
  exists g : GenericSewerMappings.t,
    g <> GenericSewerMappings.existence_unknown
    /\ m = dict_restrict (expected_fields self)
             [("sewer", PStr (GenericSewerMappings.value g));
              ("has_septic",
               PBool match g with
                     | GenericSewerMappings.septic => true
                     | _ => false
                     end)].
Proof.
  intros H. apply build_home_data_ok in H.
  apply pruned_home_data_ok in H. destruct H as [g ->].
  destruct g.
  - exists GenericSewerMappings.municipal. split; [discriminate | reflexivity].
  - exists GenericSewerMappings.septic. split; [discriminate | reflexivity].
  - exists GenericSewerMappings.storm. split; [discriminate | reflexivity].
  - exists GenericSewerMappings.no_sewer. split; [discriminate | reflexivity].
  - exists GenericSewerMappings.type_unknown. split; [discriminate | reflexivity].
Qed.

Lemma X9_result_values_witness :
  exists g : GenericSewerMappings.t,
    g <> GenericSewerMappings.existence_unknown
    /\ [("sewer", PStr "no_sewer"); ("has_septic", PBool false)]
       = dict_restrict ["has_septic"; "sewer"]
           [("sewer", PStr (GenericSewerMappings.value g));
            ("has_septic",
             PBool match g with
                   | GenericSewerMappings.septic => true
                   | _ => false
                   end)].
Proof.
  apply (X9_result_values
           (respond (canary_payload [("sewer", PStr "None")] []))
           (init ["has_septic"; "sewer"] None None)
           [("sewer", PStr "no_sewer"); ("has_septic", PBool false)] eq_refl).
Defined.

Lemma parse_single_field (self : HomeDataSvc) (home_data : pyval) (result : dict) :
  container home_data = Some (PDict result) ->
  well_formed home_data = true ->
  NoDup (dict_keys (as_dict (dict_get "property" result))) ->
  parse_home_data self home_data =
  Ok match dict_get "sewer"
             (dict_update (as_dict (dict_get "property" result))
                          (as_dict (dict_get "assessment" result))) with
     | Some v => [("sewer", v)]
     | None => []
     end.
Proof.
  intros C W Hnd.
  destruct (parse_well_formed self home_data W) as [r [Cr E]].
  rewrite C in Cr. injection Cr as <-. rewrite E. f_equal.
  apply (dict_restrict_single "sewer"). now apply dict_update_NoDup.
Qed.

(** X10.  The whole pipeline on a payload of the expected shape.  Let [v]
    be the sewer value of the merged [property] and [assessment] objects.
    Without one the build raises [KeyError] for [sewer]; with a value that
    has no entry in the provider-to-generic table it raises [ValueError];
    otherwise it returns, and stores on the instance, the pruning of the
    mapping with the canonical sewer value and [has_septic].  An instance
    is left unchanged by a build that raises. *)
Theorem X10_build_on_well_formed_payload
    (net : network) (self : HomeDataSvc) (home_data : pyval) (result : dict) :
  fetch_home_data net self = Ok home_data ->
  container home_data = Some (PDict result) ->
  well_formed home_data = true ->
  NoDup (dict_keys (as_dict (dict_get "property" result))) ->
  build_home_data net self =
  match dict_get "sewer"
          (dict_update (as_dict (dict_get "property" result))
                       (as_dict (dict_get "assessment" result))) with
  | None => (Raise (KeyError "sewer"), self)
  | Some v =>
      match table_lookup house_canary_sewer_to_generic v with
      | None => (Raise ValueError, self)
      | Some c =>
          let pruned :=
            dict_restrict (expected_fields self)
              [("sewer", PStr c); ("has_septic", PBool (String.eqb c "septic"))] in
          (Ok pruned, set_data self pruned)
      end
  end.
Proof.
  intros F C W Hnd. unfold build_home_data, pruned_home_data.
  rewrite F. cbn [bind save_to_file].
  rewrite (parse_single_field self home_data result C W Hnd).
  destruct (dict_get "sewer" _) as [v|]; cbn [bind].
  - rewrite normalize_sewer_value.
    destruct (table_lookup house_canary_sewer_to_generic v) as [c|];
      reflexivity.
  - reflexivity.
Qed.

Lemma X10_build_on_well_formed_payload_witness :
  build_home_data
    (respond (canary_payload [("sewer", PStr "Yes"); ("pool", PStr "No")]
                             [("sewer", PStr "Septic")]))
    (init ["has_septic"] (Some "1 Main St") (Some "02139"))
  = (Ok [("has_septic", PBool true)],
     set_data (init ["has_septic"] (Some "1 Main St") (Some "02139"))
       [("has_septic", PBool true)]).
Proof.
  apply (X10_build_on_well_formed_payload
           (respond (canary_payload [("sewer", PStr "Yes"); ("pool", PStr "No")]
                                    [("sewer", PStr "Septic")]))
           (init ["has_septic"] (Some "1 Main St") (Some "02139"))
           (canary_payload [("sewer", PStr "Yes"); ("pool", PStr "No")]
                           [("sewer", PStr "Septic")])
           [("property", PDict [("sewer", PStr "Yes"); ("pool", PStr "No")]);
            ("assessment", PDict [("sewer", PStr "Septic")])]
           eq_refl eq_refl eq_refl
           ltac:(repeat constructor; simpl; intuition discriminate)).
Defined.

Lemma pruned_home_data_depends (net : network) (s1 s2 : HomeDataSvc) :
  address s1 = address s2 ->
  zip_code s1 = zip_code s2 ->
  (forall k, In k (expected_fields s1) <-> In k (expected_fields s2)) ->
  pruned_home_data net s1 = pruned_home_data net s2.
Proof.
  intros Ha Hz Hf. unfold pruned_home_data, fetch_home_data.
  rewrite Ha, Hz.
  destruct (net (address s2) (zip_code s2)) as [response|e]; [|reflexivity].
  cbn [bind]. destruct (raise_for_status response); [|reflexivity].
  cbn [bind]. destruct (json response) as [fetched|e]; [|reflexivity].
  cbn [bind save_to_file].
  change (parse_home_data s2 fetched) with (parse_home_data s1 fetched).
  destruct (parse_home_data s1 fetched) as [parsed|e]; [|reflexivity].
  cbn [bind].
  change (normalize_home_data s2 parsed) with (normalize_home_data s1 parsed).
  destruct (normalize_home_data s1 parsed) as [normalized|e]; [|reflexivity].
  cbn [bind].
  change (_build_constructed_fields s2 normalized)
    with (_build_constructed_fields s1 normalized).
  destruct (_build_constructed_fields s1 normalized) as [d|e]; [|reflexivity].
  cbn [bind]. f_equal. now apply dict_restrict_ext.
Qed.

(** X11.  The requested fields count as a set, and what an earlier build
    stored plays no part: two instances with the same address and zip code
    whose requested fields have the same members, in any order and with any
    repetition, get the same outcome from the same network; the keys of a
    returned mapping come in the order sewer, has_septic. *)
Theorem X11_requested_fields_as_a_set (net : network) (s1 s2 : HomeDataSvc) :
  address s1 = address s2 ->
  zip_code s1 = zip_code s2 ->
  (forall k, In k (expected_fields s1) <-> In k (expected_fields s2)) ->
  fst (build_home_data net s1) = fst (build_home_data net s2)
  /\ forall m, fst (build_home_data net s1) = Ok m ->
               exists keep, dict_keys m = filter keep ["sewer"; "has_septic"].
Proof.
  intros Ha Hz Hf. split.
  - unfold build_home_data.
    rewrite (pruned_home_data_depends net s1 s2 Ha Hz Hf).
    destruct (pruned_home_data net s2); reflexivity.
  - intros m H. apply build_home_data_ok in H.
    apply pruned_home_data_ok in H. destruct H as [g ->].
    exists (fun k => str_in k (expected_fields s1)).
    unfold dict_restrict; simpl.
    destruct (str_in "sewer" (expected_fields s1));
      destruct (str_in "has_septic" (expected_fields s1)); reflexivity.
Qed.

Lemma X11_requested_fields_as_a_set_witness :
  fst (build_home_data
         (respond (canary_payload [("sewer", PStr "Septic")] []))
         (init ["has_septic"; "sewer"; "has_septic"] None None))
  = fst (build_home_data
           (respond (canary_payload [("sewer", PStr "Septic")] []))
           (set_data (init ["sewer"; "has_septic"] None None)
                     [("sewer", PStr "storm")])).
Proof.
  apply (proj1 (X11_requested_fields_as_a_set
                  (respond (canary_payload [("sewer", PStr "Septic")] []))
                  (init ["has_septic"; "sewer"; "has_septic"] None None)
                  (set_data (init ["sewer"; "has_septic"] None None)
                            [("sewer", PStr "storm")])
                  eq_refl eq_refl
                  ltac:(intros k; simpl; tauto))).
Defined.

(** X12.  Building twice on one instance, with the network answering
    alike, gives the second time the outcome and the instance of the first
    time: a build that raised raises again and stores nothing, a build that
    returned stores the same mapping again. *)
Theorem X12_build_twice (net : network) (self : HomeDataSvc) :
  build_home_data net (snd (build_home_data net self))
  = build_home_data net self.
Proof.
  unfold build_home_data at 2 3.
  destruct (pruned_home_data net self) as [m|e] eqn:E; simpl.
  - unfold build_home_data.
    rewrite (pruned_home_data_depends net (set_data self m) self
               eq_refl eq_refl (fun k => iff_refl _)).
    rewrite E. reflexivity.
  - unfold build_home_data. rewrite E. reflexivity.
Qed.

Lemma update_from_pair_items (other d : dict) :
  update_from_pairs d (map pair_item other) = Ok (dict_update d other).
Proof.
  unfold dict_update. revert d.
  induction other as [|[k v] other IH]; intros d; simpl; [reflexivity|].
  apply IH.
Qed.

(** X13.  [parse_home_data] asks less of [assessment] than of [property]:
    an [assessment] that is an array of [[key, value]] pairs is merged as
    the object with those items would be, so an empty array merges
    nothing; an empty string merges nothing either, and the parsed mapping
    is then that of the [property] object alone. *)
Theorem X13_parse_assessment_as_pairs
    (self : HomeDataSvc) (home_data : pyval) (result property : dict) :
  container home_data = Some (PDict result) ->
  dict_get "property" result = Some (PDict property) ->
  (forall other,
     dict_get "assessment" result = Some (PList (map pair_item other)) ->
     parse_home_data self home_data
     = Ok (dict_restrict fields_to_retrieve (dict_update property other)))
  /\ (dict_get "assessment" result = Some (PStr "") ->
      parse_home_data self home_data
      = Ok (dict_restrict fields_to_retrieve property)).
Proof.
  intros C Hp. rewrite (parse_container_some self _ _ C).
  unfold py_get. rewrite Hp. split.
  - intros other ->. cbn [bind py_update].
    now rewrite update_from_pair_items.
  - intros ->. reflexivity.
Qed.

Lemma X13_parse_assessment_as_pairs_witness :
  parse_home_data (init [] None None)
    (PDict [("property/details",
             PDict [("result",
                     PDict [("property", PDict [("sewer", PStr "Yes")]);
                            ("assessment", PList [])])])])
  = Ok [("sewer", PStr "Yes")]
  /\ parse_home_data (init [] None None)
       (PDict [("property/details",
                PDict [("result",
                        PDict [("property", PDict [("sewer", PStr "Yes")]);
                               ("assessment",
                                PList [PList [PStr "sewer"; PStr "Storm"]])])])])
     = Ok [("sewer", PStr "Storm")].
Proof.
  split.
  - apply (proj1 (X13_parse_assessment_as_pairs (init [] None None)
                    (PDict [("property/details",
                             PDict [("result",
                                     PDict [("property", PDict [("sewer", PStr "Yes")]);
                                            ("assessment", PList [])])])])
                    [("property", PDict [("sewer", PStr "Yes")]);
                     ("assessment", PList [])]
                    [("sewer", PStr "Yes")] eq_refl eq_refl) [] eq_refl).
  - apply (proj1 (X13_parse_assessment_as_pairs (init [] None None)
                    (PDict [("property/details",
                             PDict [("result",
                                     PDict [("property", PDict [("sewer", PStr "Yes")]);
                                            ("assessment",
                                             PList [PList [PStr "sewer"; PStr "Storm"]])])])])
                    [("property", PDict [("sewer", PStr "Yes")]);
                     ("assessment", PList [PList [PStr "sewer"; PStr "Storm"]])]
                    [("sewer", PStr "Yes")] eq_refl eq_refl)
             [("sewer", PStr "Storm")] eq_refl).
Defined.

(** ** fetch_home_data *)

(** X14.  [fetch_home_data] returns a payload exactly when the request
    returned a response whose status is not a 4xx or 5xx and whose body
    decodes to that payload: the status is looked at before the body, so an
    error status with a decodable body returns nothing. *)
Theorem X14_fetch_returns_iff
    (net : network) (self : HomeDataSvc) (home_data : pyval) :
  fetch_home_data net self = Ok home_data
  <-> exists response,
        net (address self) (zip_code self) = Ok response
        /\ ~ (400 <= status_code response < 600)%Z
        /\ body response = Some home_data.
Proof.
  unfold fetch_home_data, raise_for_status, json. split.
  - destruct (net (address self) (zip_code self)) as [response|e];
      [|discriminate].
    cbn [bind].
    destruct (Z.leb_spec 400 (status_code response));
      destruct (Z.ltb_spec (status_code response) 600); cbn [andb bind];
      try discriminate;
      (destruct (body response) as [b|] eqn:Eb; [|discriminate]);
      intros Hbody; injection Hbody as <-; exists response;
      (split; [reflexivity | split; [lia | exact Eb]]).
  - intros [response [-> [Hs Hb]]]. cbn [bind]. rewrite Hb.
    destruct (Z.leb_spec 400 (status_code response));
      destruct (Z.ltb_spec (status_code response) 600); cbn [andb bind];
      try reflexivity.
    exfalso. apply Hs. lia.
Qed.

Lemma X14_fetch_returns_iff_witness :
  fetch_home_data
    (fun _ _ => Ok {| status_code := 304; body := Some (PDict []) |})
    (init [] None None)
  = Ok (PDict [])
  /\ fetch_home_data
       (fun _ _ => Ok {| status_code := 404; body := Some (PDict []) |})
       (init [] None None)
     <> Ok (PDict []).
Proof.
  split.
  - apply (proj2 (X14_fetch_returns_iff
                    (fun _ _ => Ok {| status_code := 304; body := Some (PDict []) |})
                    (init [] None None) (PDict []))).
    exists {| status_code := 304; body := Some (PDict []) |}.
    split; [reflexivity|]. split; [simpl; lia | reflexivity].
  - intros H.
    apply (proj1 (X14_fetch_returns_iff
                    (fun _ _ => Ok {| status_code := 404; body := Some (PDict []) |})
                    (init [] None None) (PDict []))) in H.
    destruct H as [response [E [Hs _]]].
    injection E as <-. apply Hs. simpl. lia.
Defined.

(** ** The view *)

Lemma build_home_data_data (net : network) (self : HomeDataSvc) :
  match fst (build_home_data net self) with
  | Ok m => data (snd (build_home_data net self)) = Some m
  | Raise _ => snd (build_home_data net self) = self
  end.
Proof.
  unfold build_home_data. destruct (pruned_home_data net self); reflexivity.
Qed.

(** X15.  The view answers with the mapping built for the last [address],
    the last [zip] and all the [fields] values of the query: the response
    data is that mapping, never [None]; its keys are the [fields] values
    among sewer and has_septic, so that a query without [fields] gets the
    empty mapping; and an exception of any stage leaves the view as it is,
    no response being made. *)
Theorem X15_view_response (net : network) (GET : views.QueryDict) :
  views.unregistered_home_data net GET =
  match fst (build_home_data net
               (init (views.getlist GET "fields") (views.get GET "address")
                     (views.get GET "zip"))) with
  | Ok m => Ok {| views.response_data := Some m |}
  | Raise e => Raise e
  end
  /\ forall response,
       views.unregistered_home_data net GET = Ok response ->
       exists m,
         views.response_data response = Some m
         /\ (forall k, In k (dict_keys m) <->
                       In k (views.getlist GET "fields")
                       /\ (k = "sewer" \/ k = "has_septic"))
         /\ (views.getlist GET "fields" = [] -> m = []).
Proof.
  set (svc := init (views.getlist GET "fields") (views.get GET "address")
                   (views.get GET "zip")).
  assert (E : views.unregistered_home_data net GET =
              match fst (build_home_data net svc) with
              | Ok m => Ok {| views.response_data := Some m |}
              | Raise e => Raise e
              end).
  { unfold views.unregistered_home_data. fold svc.
    pose proof (build_home_data_data net svc) as D.
    destruct (build_home_data net svc) as [[m|e] svc']; simpl in *;
      [now rewrite D | reflexivity]. }
  split; [exact E|].
  intros response H. rewrite E in H.
  destruct (fst (build_home_data net svc)) as [m|e] eqn:B; [|discriminate].
  injection H as <-. exists m. split; [reflexivity|].
  apply build_home_data_ok in B. apply pruned_home_data_ok in B.
  destruct B as [g ->]. subst svc. split.
  - intros k. rewrite dict_keys_restrict. simpl. intuition (subst; auto).
  - simpl. intros ->. reflexivity.
Qed.

Lemma X15_view_response_witness :
  views.unregistered_home_data
    (respond (canary_payload [("sewer", PStr "Septic")] []))
    [("address", "1 Main St"); ("zip", "02139"); ("fields", "has_septic");
     ("fields", "pool")]
  = Ok {| views.response_data := Some [("has_septic", PBool true)] |}
  /\ exists m,
       Some [("has_septic", PBool true)] = Some m
       /\ (forall k, In k (dict_keys m) <->
                     In k ["has_septic"; "pool"]
                     /\ (k = "sewer" \/ k = "has_septic"))
       /\ (["has_septic"; "pool"] = [] -> m = []).
Proof.
  split; [reflexivity|].
  apply (proj2 (X15_view_response
                  (respond (canary_payload [("sewer", PStr "Septic")] []))
                  [("address", "1 Main St"); ("zip", "02139");
                   ("fields", "has_septic"); ("fields", "pool")])
           {| views.response_data := Some [("has_septic", PBool true)] |}
           eq_refl).
Defined.
